(** * InteractiveBackend.py: the [/api/save-config] handler

    A shallow embedding of [save_config] (InteractiveBackend.py, lines 28-42)
    together with the module-level folder initialisation (lines 10-15) and
    the parts of Python's [csv] module, [open] and [str]/[repr] that the
    handler relies on.

    Scope of the model:
    - Python text is modelled as Rocq [string]; characters are ASCII, so the
      UTF-8 encoding of the text is the text itself and the file content is
      the byte-order mark followed by the text.
    - [os.path.join] is taken with the POSIX separator ["/"].
    - Messages of built-in exceptions are those of CPython 3.12.
    - The file system is reduced to what [open(SAVE_PATH, 'w')] observes: the
      existence of [SwapDatas], whether the destination may be opened for
      writing, and the destination's content.  Failures of the write or of
      the final flush (disk full) are not modelled. *)

From Stdlib Require Import String Ascii ZArith List Bool Lia.
Import ListNotations.
Open Scope list_scope.
Open Scope string_scope.
Set Warnings "-register-all".

(** ** Characters and small string utilities *)

Definition dq : ascii := "034"%char.      (* double quote *)
Definition sq : ascii := "039"%char.      (* single quote *)
Definition bslash : ascii := "092"%char.  (* backslash *)
Definition cr : ascii := "013"%char.
Definition lf : ascii := "010"%char.
Definition tab : ascii := "009"%char.
Definition comma : ascii := ","%char.

Definition str1 (c : ascii) : string := String c EmptyString.

Definition crlf : string := String cr (str1 lf).

Fixpoint str_concat (l : list string) : string :=
  match l with
  | [] => EmptyString
  | s :: rest => s ++ str_concat rest
  end.

(** [sep.join(l)] *)
Fixpoint str_join (sep : string) (l : list string) : string :=
  match l with
  | [] => EmptyString
  | [s] => s
  | s :: rest => s ++ sep ++ str_join sep rest
  end.

Fixpoint str_existsb (p : ascii -> bool) (s : string) : bool :=
  match s with
  | EmptyString => false
  | String c rest => p c || str_existsb p rest
  end.

Fixpoint str_flat_map (f : ascii -> string) (s : string) : string :=
  match s with
  | EmptyString => EmptyString
  | String c rest => f c ++ str_flat_map f rest
  end.

(** Decimal text of an integer, as [str(int)]. *)
Fixpoint digits_N (fuel : nat) (n : N) (acc : string) : string :=
  match fuel with
  | O => acc
  | S fuel' =>
      let d := ascii_of_N (48 + N.modulo n 10) in
      let q := N.div n 10 in
      if (q =? 0)%N then String d acc else digits_N fuel' q (String d acc)
  end.

Definition str_of_N (n : N) : string :=
  match n with
  | N0 => "0"
  | Npos p => digits_N (Pos.size_nat p) n EmptyString
  end.

Definition str_of_Z (z : Z) : string :=
  match z with
  | Z0 => "0"
  | Zpos p => str_of_N (Npos p)
  | Zneg p => "-" ++ str_of_N (Npos p)
  end.

Definition hex_digit (n : N) : ascii :=
  if (n <? 10)%N then ascii_of_N (48 + n) else ascii_of_N (87 + n).

(** ** Python objects produced by [request.json] *)

(** What [json.loads] returns: [None], [bool], [int], [float], [str],
    [list] and [dict].  A [float] carries the text of its [repr] (Python's
    shortest round-trip formatting is not modelled).  A [dict] is the list
    of its entries in insertion order; a later entry whose key already
    occurs is shadowed (lookup finds the first, iteration lists each key
    once), which is how a Python dict holds its keys. *)
Inductive pyobj : Type :=
| PNone
| PBool (b : bool)
| PInt (z : Z)
| PFloat (repr_text : string)
| PStr (s : string)
| PList (items : list pyobj)
| PDict (entries : list (string * pyobj)).

(** [repr(s)] for a [str] of ASCII characters (CPython [unicode_repr]). *)
Definition repr_char (q c : ascii) : string :=
  if Ascii.eqb c q || Ascii.eqb c bslash then String bslash (str1 c)
  else if Ascii.eqb c tab then String bslash "t"
  else if Ascii.eqb c lf then String bslash "n"
  else if Ascii.eqb c cr then String bslash "r"
  else let n := N_of_ascii c in
       if (n <? 32)%N || (n =? 127)%N
       then String bslash (String "x" (String (hex_digit (N.div n 16))
                                        (str1 (hex_digit (N.modulo n 16)))))
       else str1 c.

Definition repr_str (s : string) : string :=
  let q := if str_existsb (Ascii.eqb sq) s && negb (str_existsb (Ascii.eqb dq) s)
           then dq else sq in
  String q (str_flat_map (repr_char q) s ++ str1 q).

Fixpoint key_in (k : string) (ks : list string) : bool :=
  match ks with
  | [] => false
  | k' :: rest => String.eqb k k' || key_in k rest
  end.

(** [repr(obj)] *)
Fixpoint py_repr (o : pyobj) : string :=
  match o with
  | PNone => "None"
  | PBool true => "True"
  | PBool false => "False"
  | PInt z => str_of_Z z
  | PFloat r => r
  | PStr s => repr_str s
  | PList items =>
      "[" ++ str_join ", " (map py_repr items) ++ "]"
  | PDict entries =>
      let fix entries_repr (es : list (string * pyobj)) (seen : list string)
          : list string :=
          match es with
          | [] => []
          | (k, v) :: rest =>
              if key_in k seen then entries_repr rest seen
              else (repr_str k ++ ": " ++ py_repr v) :: entries_repr rest (k :: seen)
          end in
      "{" ++ str_join ", " (entries_repr entries []) ++ "}"
  end.

(** [str(obj)]: differs from [repr] only on [str]. *)
Definition py_str (o : pyobj) : string :=
  match o with
  | PStr s => s
  | _ => py_repr o
  end.

(** Keys of a dict in iteration order, each once. *)
Fixpoint dict_keys_aux (es : list (string * pyobj)) (seen : list string) : list string :=
  match es with
  | [] => []
  | (k, _) :: rest =>
      if key_in k seen then dict_keys_aux rest seen
      else k :: dict_keys_aux rest (k :: seen)
  end.

Definition dict_keys (es : list (string * pyobj)) : list string := dict_keys_aux es [].

Fixpoint dict_get (k : string) (es : list (string * pyobj)) : option pyobj :=
  match es with
  | [] => None
  | (k', v) :: rest => if String.eqb k k' then Some v else dict_get k rest
  end.

Definition type_name (o : pyobj) : string :=
  match o with
  | PNone => "NoneType"
  | PBool _ => "bool"
  | PInt _ => "int"
  | PFloat _ => "float"
  | PStr _ => "str"
  | PList _ => "list"
  | PDict _ => "dict"
  end.

(** ** Exceptions *)

(** The exceptions the handler body can raise, with what [str(e)] gives. *)
Inductive py_exn : Type :=
| HTTPException (text : string)   (* raised by [request.json]: werkzeug's BadRequest
                                     on an undecodable body, UnsupportedMediaType on a
                                     non-JSON content type; [text] is its [str] *)
| TypeError (msg : string)
| KeyError (key : string)
| ValueError (msg : string)
| FileNotFoundError (filename : string)
| PermissionError (filename : string)
| OSError (errno : Z) (strerror filename : string)
    (* the other [OSError] subclasses [open] raises, [str] as for the two above *).

Definition exn_str (e : py_exn) : string :=
  match e with
  | HTTPException t => t
  | TypeError m => m
  | KeyError k => repr_str k
  | ValueError m => m
  | FileNotFoundError f => "[Errno 2] No such file or directory: " ++ repr_str f
  | PermissionError f => "[Errno 13] Permission denied: " ++ repr_str f
  | OSError n m f => "[Errno " ++ str_of_Z n ++ "] " ++ m ++ ": " ++ repr_str f
  end.

(** ** The [csv] writer (excel dialect: comma delimiter, double-quote
    quote character doubled inside quoted fields, [QUOTE_MINIMAL], line
    terminator CR LF) *)

Definition csv_needs_quote (c : ascii) : bool :=
  Ascii.eqb c comma || Ascii.eqb c dq || Ascii.eqb c cr || Ascii.eqb c lf.

Definition csv_escape (s : string) : string :=
  str_flat_map (fun c => if Ascii.eqb c dq then String dq (str1 dq) else str1 c) s.

Definition csv_quote (s : string) : string :=
  if str_existsb csv_needs_quote s then String dq (csv_escape s ++ str1 dq) else s.

(** The text the writer takes for one field: [None] is written as an empty
    field, a [float] through [repr], anything else through [str]. *)
Definition csv_field_text (o : pyobj) : string :=
  match o with
  | PNone => EmptyString
  | PFloat r => r
  | _ => py_str o
  end.

(** One record as [writerow] emits it.  A record made of a single empty
    field is written as two double quotes so that it is not read back as a blank line. *)
Definition csv_join (fields : list string) : string :=
  match fields with
  | [EmptyString] => String dq (str1 dq)
  | _ => str_join "," (map csv_quote fields)
  end ++ crlf.

(** ** File system and the handler's monad *)

(** UTF-8 byte-order mark written by the [utf-8-sig] encoder. *)
Definition bom : string :=
  String (ascii_of_nat 239) (String (ascii_of_nat 187) (str1 (ascii_of_nat 191))).

(** Why [open(SAVE_PATH, 'w')] fails when the entry [SwapDatas] exists:
    access denied, the destination is a directory, [SwapDatas] is a plain
    file, or the file system is mounted read-only. *)
Inductive open_failure : Type :=
| Denied
| IsDirectory
| NotDirectory
| ReadOnlyFS.

(** The exception [open] raises for each reason. *)
Definition open_failure_exn (r : open_failure) (path : string) : py_exn :=
  match r with
  | Denied => PermissionError path
  | IsDirectory => OSError 21 "Is a directory" path
  | NotDirectory => OSError 20 "Not a directory" path
  | ReadOnlyFS => OSError 30 "Read-only file system" path
  end.

(** [dir_exists]: whether an entry [SwapDatas] exists (what
    [os.path.exists] tests; normally the folder); [dest_writable]: whether
    [open(SAVE_PATH, 'w')] succeeds when it does; [dest]: the content of
    [SwapDatas/InputDatas.csv], if it exists; [bom_pending]: state of the
    [utf-8-sig] encoder of the open file (the mark precedes the first
    write); [open_reason]: why [open] fails when [dest_writable] is false. *)
Record fs : Type := mkFS {
  dir_exists : bool;
  dest_writable : bool;
  dest : option string;
  bom_pending : bool;
  open_reason : open_failure
}.

Inductive outcome (A : Type) : Type :=
| Ok (a : A)
| Raised (e : py_exn).
Arguments Ok {A} a.
Arguments Raised {A} e.

(** State and exception monad: the handler threads the file system and may
    raise a Python exception. *)
Definition M (A : Type) : Type := fs -> fs * outcome A.

Definition ret {A} (a : A) : M A := fun s => (s, Ok a).
Definition raise {A} (e : py_exn) : M A := fun s => (s, Raised e).
Definition bind {A B} (m : M A) (k : A -> M B) : M B :=
  fun s => match m s with
           | (s', Ok a) => k a s'
           | (s', Raised e) => (s', Raised e)
           end.

Notation "x <- m ;; k" := (bind m (fun x => k))
  (at level 61, m at next level, right associativity).
Notation "m ;;; k" := (bind m (fun _ => k))
  (at level 61, right associativity).

(** [try: m except Exception as e: h(e)] *)
Definition try_except {A} (m : M A) (h : py_exn -> M A) : M A :=
  fun s => match m s with
           | (s', Ok a) => (s', Ok a)
           | (s', Raised e) => h e s'
           end.

(** [for x in l: body(x)] over an already materialised iteration. *)
Fixpoint for_each {A} (l : list A) (body : A -> M unit) : M unit :=
  match l with
  | [] => ret tt
  | x :: rest => body x ;;; for_each rest body
  end.

(** ** Module-level configuration (lines 11-15) *)

Definition os_path_join (a b : string) : string := a ++ "/" ++ b.

Definition SAVE_FOLDER : string := "SwapDatas".
Definition SAVE_PATH : string := os_path_join SAVE_FOLDER "InputDatas.csv".

(** [if not os.path.exists(SAVE_FOLDER): os.makedirs(SAVE_FOLDER)], run
    once when the module is loaded. *)
Definition init_folder (s : fs) : fs :=
  if dir_exists s then s
  else {| dir_exists := true; dest_writable := dest_writable s;
          dest := dest s; bom_pending := bom_pending s; open_reason := open_reason s |}.

(** ** Primitive operations used by [save_config] *)

(** The request, as [request.json] sees it: the decoded body, or the
    exception Flask raises instead of decoding it (a Content-Type that is
    not JSON, or a body that does not decode). *)
Inductive request : Type :=
| JsonBody (data : pyobj)
| JsonError (e : py_exn).

Definition request_json (req : request) : M pyobj :=
  match req with
  | JsonBody d => ret d
  | JsonError e => raise e
  end.

(** [open(path, mode='w', newline='', encoding='utf-8-sig')]: truncates
    (or creates) the destination. *)
Definition open_write (path : string) : M unit :=
  fun s =>
    if negb (dir_exists s) then (s, Raised (FileNotFoundError path))
    else if negb (dest_writable s) then (s, Raised (open_failure_exn (open_reason s) path))
    else ({| dir_exists := dir_exists s; dest_writable := dest_writable s;
             dest := Some EmptyString; bom_pending := true;
             open_reason := open_reason s |}, Ok tt).

(** [f.write(text)].  The buffered writes reach the file when the [with]
    block closes it, on the normal and on the exceptional exit alike, so
    the model applies them to the content directly. *)
Definition file_write (text : string) : M unit :=
  fun s =>
    match dest s with
    | None => (s, Raised (ValueError "I/O operation on closed file."))
    | Some c =>
        ({| dir_exists := dir_exists s; dest_writable := dest_writable s;
            dest := Some (c ++ (if bom_pending s then bom else EmptyString) ++ text);
            bom_pending := false; open_reason := open_reason s |}, Ok tt)
    end.

(** [writer.writerow(row)] *)
Definition writerow (row : list pyobj) : M unit :=
  file_write (csv_join (map csv_field_text row)).

(** The items a [for] loop visits: the elements of a list, the keys of a
    dict, the one-character strings of a str; other objects are not
    iterable. *)
Definition iter_list (o : pyobj) : option (list pyobj) :=
  match o with
  | PList items => Some items
  | PDict es => Some (map PStr (dict_keys es))
  | PStr s => Some (map (fun c => PStr (str1 c)) (list_ascii_of_string s))
  | _ => None
  end.

(** [iter(o)] *)
Definition py_iter (o : pyobj) : M (list pyobj) :=
  match iter_list o with
  | Some items => ret items
  | None => raise (TypeError ("'" ++ type_name o ++ "' object is not iterable"))
  end.

(** [o[key]] for a [str] key. *)
Definition getitem (o : pyobj) (key : string) : M pyobj :=
  match o with
  | PDict es =>
      match dict_get key es with
      | Some v => ret v
      | None => raise (KeyError key)
      end
  | PList _ => raise (TypeError "list indices must be integers or slices, not str")
  | PStr _ => raise (TypeError "string indices must be integers, not 'str'")
  | _ => raise (TypeError ("'" ++ type_name o ++ "' object is not subscriptable"))
  end.

(** ** The handler (lines 28-42) *)

(** [jsonify({"status": ..., "message": ...})] with its HTTP status. *)
Record response : Type := mkResp {
  http_status : Z;
  status : string;
  message : string
}.

Definition HEADER : list pyobj := [PStr "Panel"; PStr "Parameter"; PStr "Value"].

(** Body of the [for] loop (line 36):
    [writer.writerow([item['panel'], item['parameter'], item['value']])]. *)
Definition save_row (item : pyobj) : M unit :=
  p <- getitem item "panel" ;;
  q <- getitem item "parameter" ;;
  v <- getitem item "value" ;;
  writerow [p; q; v].

(** Body of the [with] block (lines 33-36). *)
Definition write_table (data : pyobj) : M unit :=
  writerow HEADER ;;;
  items <- py_iter data ;;
  for_each items save_row.

Definition success_response : response :=
  mkResp 200 "success" ("Saved to " ++ SAVE_PATH).

Definition error_response (e : py_exn) : response :=
  mkResp 500 "error" (exn_str e).

(** The handler.  The diagnostic [print] calls write to standard output
    only and are left out. *)
Definition save_config (req : request) : M response :=
  try_except
    (data <- request_json req ;;
     (open_write SAVE_PATH ;;; write_table data) ;;;
     ret success_response)
    (fun e => ret (error_response e)).


(** ** Reading the persisted file back *)

(** The claims speak of parsing the file with a standard CSV reader.  This
    is that reader, following the state machine of Python's [csv.reader]
    (excel dialect, non-strict) on text decoded with [utf-8-sig]: a record
    ends at CR, LF or CR LF outside quotes; line breaks inside quotes belong
    to the field; a blank line is an empty record. *)
Inductive pstate : Type :=
| StartRecord | AfterCR | StartField | InField | InQuoted | QuoteInQuoted.

Definition is_nl (c : ascii) : bool := Ascii.eqb c cr || Ascii.eqb c lf.

Definition end_state (c : ascii) : pstate :=
  if Ascii.eqb c cr then AfterCR else StartRecord.

Definition save_field (acc : list ascii) (flds : list string) : list string :=
  (flds ++ [string_of_list_ascii acc])%list.

(** One transition: new state, field being read, fields of the record so
    far, and the record completed by this character, if any. *)
Definition step_result : Type :=
  (pstate * list ascii * list string * option (list string))%type.

Definition step_field_start (c : ascii) (flds : list string) : step_result :=
  if Ascii.eqb c dq then (InQuoted, [], flds, None)
  else if Ascii.eqb c comma then (StartField, [], save_field [] flds, None)
  else if is_nl c then (end_state c, [], [], Some (save_field [] flds))
  else (InField, [c], flds, None).

Definition step_record_start (c : ascii) : step_result :=
  if is_nl c then (end_state c, [], [], Some [])
  else step_field_start c [].

Definition csv_step (st : pstate) (acc : list ascii) (flds : list string) (c : ascii)
  : step_result :=
  match st with
  | AfterCR => if Ascii.eqb c lf then (StartRecord, [], [], None)
               else step_record_start c
  | StartRecord => step_record_start c
  | StartField => step_field_start c flds
  | InField =>
      if Ascii.eqb c comma then (StartField, [], save_field acc flds, None)
      else if is_nl c then (end_state c, [], [], Some (save_field acc flds))
      else (InField, (acc ++ [c])%list, flds, None)
  | InQuoted =>
      if Ascii.eqb c dq then (QuoteInQuoted, acc, flds, None)
      else (InQuoted, (acc ++ [c])%list, flds, None)
  | QuoteInQuoted =>
      if Ascii.eqb c dq then (InQuoted, (acc ++ [dq])%list, flds, None)
      else if Ascii.eqb c comma then (StartField, [], save_field acc flds, None)
      else if is_nl c then (end_state c, [], [], Some (save_field acc flds))
      else (InField, (acc ++ [c])%list, flds, None)
  end.

Fixpoint csv_parse (st : pstate) (acc : list ascii) (flds : list string) (s : string)
  : list (list string) :=
  match s with
  | EmptyString =>
      match st with
      | StartRecord | AfterCR => []
      | _ => [save_field acc flds]
      end
  | String c rest =>
      let '(st', acc', flds', out) := csv_step st acc flds c in
      match out with
      | Some r => r :: csv_parse st' acc' flds' rest
      | None => csv_parse st' acc' flds' rest
      end
  end.

Definition strip_bom (s : string) : string :=
  match s with
  | String a (String b (String c rest)) =>
      if String.eqb (String a (String b (str1 c))) bom then rest else s
  | _ => s
  end.

Definition csv_read (content : string) : list (list string) :=
  csv_parse StartRecord [] [] (strip_bom content).

(** ** Derived descriptions used in the statements *)

(** The table a successful save writes: header, then one record per item. *)
Definition csv_table (rows : list (list pyobj)) : string :=
  bom ++ str_concat (map (fun r => csv_join (map csv_field_text r)) (HEADER :: rows)).

Definition has_key (k : string) (o : pyobj) : bool :=
  match o with
  | PDict es => match dict_get k es with Some _ => true | None => false end
  | _ => false
  end.

(** An item that the loop body accepts: a dict holding the three keys. *)
Definition record_ok (o : pyobj) : bool :=
  has_key "panel" o && has_key "parameter" o && has_key "value" o.

Definition field_of (k : string) (o : pyobj) : pyobj :=
  match o with
  | PDict es => match dict_get k es with Some v => v | None => PNone end
  | _ => PNone
  end.

Definition row_of (o : pyobj) : list pyobj :=
  [field_of "panel" o; field_of "parameter" o; field_of "value" o].

(** The file system after the destination has been opened and written
    with content [c]. *)
Definition with_dest (s : fs) (c : string) : fs :=
  {| dir_exists := dir_exists s; dest_writable := dest_writable s;
     dest := Some c; bom_pending := false ; open_reason := open_reason s |}.

(** The record written for one accepted item. *)
Definition row_text (item : pyobj) : string :=
  csv_join (map csv_field_text (row_of item)).




(** One record of three fields as the writer emits it: the fields, quoted
    where needed, joined by commas, then CR LF. *)
Definition record_line (it : pyobj) : string :=
  str_join "," (map csv_quote (map csv_field_text (row_of it))) ++ crlf.

(** The header record as written, preceded by the byte-order mark. *)
Definition header_text : string := bom ++ csv_join (map csv_field_text HEADER).



(** A persisted file that is well formed: the header record followed by
    records of three fields each. *)
Definition file_valid (content : option string) : Prop :=
  match content with
  | None => True
  | Some c => exists rows, Forall (fun r => length r = 3) rows /\ c = csv_table rows
  end.

(** A run of the server: the module-level folder initialisation, then the
    requests in order. *)
Fixpoint run_requests (reqs : list request) (s : fs) : fs :=
  match reqs with
  | [] => s
  | r :: rest => run_requests rest (fst (save_config r s))
  end.

Definition serve (reqs : list request) (s : fs) : fs :=
  run_requests reqs (init_folder s).

(** ** Static routes (lines 7, 17-25) *)

(** [s.split(sep)] *)
Fixpoint split_on (sep : ascii) (s : string) : list string :=
  match s with
  | EmptyString => [EmptyString]
  | String c rest =>
      match split_on sep rest with
      | [] => []
      | w :: ws => if Ascii.eqb c sep then EmptyString :: w :: ws
                   else String c w :: ws
      end
  end.

Definition slash : ascii := "/"%char.

Fixpoint repeat_str (n : nat) (s : string) : string :=
  match n with
  | O => EmptyString
  | S n' => s ++ repeat_str n' s
  end.

(** One iteration of the loop of [posixpath.normpath] over the components;
    [rev_comps] is [new_comps] with its last element first. *)
Definition normpath_step (initial_slashes : nat) (rev_comps : list string) (comp : string)
  : list string :=
  if String.eqb comp EmptyString || String.eqb comp "." then rev_comps
  else if negb (String.eqb comp "..")
          || (Nat.eqb initial_slashes 0 && match rev_comps with [] => true | _ => false end)
          || match rev_comps with x :: _ => String.eqb x ".." | [] => false end
  then comp :: rev_comps
  else match rev_comps with
       | _ :: rest => rest
       | [] => []
       end.

(** [posixpath.normpath(path)] *)
Definition normpath (path : string) : string :=
  if String.eqb path EmptyString then "."
  else
    let initial_slashes :=
      if String.prefix "/" path then
        if String.prefix "//" path && negb (String.prefix "///" path) then 2 else 1
      else 0 in
    let comps := fold_left (normpath_step initial_slashes) (split_on slash path) [] in
    let p := repeat_str initial_slashes "/" ++ str_join "/" (rev comps) in
    if String.eqb p EmptyString then "." else p.

(** [posixpath.join(a, b)] *)
Definition posix_join (a b : string) : string :=
  if String.prefix "/" b then b
  else if String.eqb a EmptyString then b
  else if String.eqb (substring (String.length a - 1) 1 a) "/" then a ++ b
  else a ++ "/" ++ b.

(** [werkzeug.security.safe_join(directory, filename)] on POSIX, where the
    list of alternative separators is empty. *)
Definition safe_join (directory filename : string) : option string :=
  let directory := if String.eqb directory EmptyString then "." else directory in
  let filename := if String.eqb filename EmptyString then filename
                  else normpath filename in
  if String.prefix "/" filename || String.eqb filename ".."
     || String.prefix "../" filename
  then None
  else Some (posix_join directory filename).

(** Outcome of a static route: the file sent (path and content) or the
    404 that [NotFound] produces. *)
Inductive file_reply : Type :=
| Served (path content : string)
| NotFound404.

Section StaticRoutes.

(** The operating system's view of the application directory: the content
    of the regular file at a path (taken relative to the application root,
    as [os.path.join(root_path, path)] does), or [None] when there is no
    regular file there ([os.path.isfile] fails). *)
Variable read_file : string -> option string.

(** [flask.send_from_directory(directory, path)] *)
Definition send_from_directory (directory path : string) : file_reply :=
  match safe_join directory path with
  | None => NotFound404
  | Some p =>
      match read_file p with
      | Some c => Served p c
      | None => NotFound404
      end
  end.

(** [index()], route [/] *)
Definition index : file_reply := send_from_directory "." "index.html".

(** [send_components(path)], route [/components/<path:path>] *)
Definition send_components (path : string) : file_reply :=
  send_from_directory "components" path.

(** The static route that [Flask(__name__, static_folder='.',
    static_url_path='')] registers, [/<path:filename>]:
    [send_static_file(filename)]. *)
Definition send_static_file (filename : string) : file_reply :=
  send_from_directory "." filename.

End StaticRoutes.

(** * Lemmas *)

(** ** Strings *)

Lemma str_app_assoc : forall a b c : string, (a ++ b) ++ c = a ++ (b ++ c).
Proof. induction a; intros; simpl; [reflexivity | now rewrite IHa]. Qed.

Lemma str_app_nil_r : forall a : string, a ++ EmptyString = a.
Proof. induction a; simpl; [reflexivity | now rewrite IHa]. Qed.

Lemma ascii_eqb_refl_true : forall c, Ascii.eqb c c = true.
Proof. intro c. apply Ascii.eqb_refl. Qed.

Ltac ascii_cases :=
  repeat match goal with
  | |- context [Ascii.eqb ?a ?b] =>
      let E := fresh "E" in
      destruct (Ascii.eqb_spec a b) as [E | E]; [subst | ]
  end.

(** ** The reader inverts the writer *)















(** ** The handler, step by step *)

Lemma save_row_ok : forall item s c,
  record_ok item = true ->
  save_row item (with_dest s c) = (with_dest s (c ++ row_text item), Ok tt).
Proof.
  intros item s c H. destruct item as [| | | | | | es]; try discriminate.
  unfold record_ok, has_key in H.
  destruct (dict_get "panel" es) as [p |] eqn:Hp; [| discriminate].
  destruct (dict_get "parameter" es) as [q |] eqn:Hq; [| discriminate].
  destruct (dict_get "value" es) as [v |] eqn:Hv; [| discriminate].
  unfold save_row, bind, getitem, ret. rewrite Hp, Hq, Hv.
  unfold row_text, row_of, field_of. rewrite Hp, Hq, Hv. reflexivity.
Qed.

Lemma save_row_err : forall item s c,
  record_ok item = false ->
  exists e, save_row item (with_dest s c) = (with_dest s c, Raised e).
Proof.
  intros item s c H. destruct item as [| | | | | | es];
    try (eexists; reflexivity).
  unfold record_ok, has_key in H. unfold save_row, bind, getitem, ret, raise.
  destruct (dict_get "panel" es) as [p |] eqn:Hp; [| eexists; reflexivity].
  destruct (dict_get "parameter" es) as [q |] eqn:Hq; [| eexists; reflexivity].
  destruct (dict_get "value" es) as [v |] eqn:Hv; [discriminate | eexists; reflexivity].
Qed.

Lemma for_each_rows : forall items s c,
  (forallb record_ok items = true /\
   for_each items save_row (with_dest s c)
   = (with_dest s (c ++ str_concat (map row_text items)), Ok tt)) \/
  (exists pre bad post e,
     items = (pre ++ bad :: post)%list /\ forallb record_ok pre = true /\
     record_ok bad = false /\
     for_each items save_row (with_dest s c)
     = (with_dest s (c ++ str_concat (map row_text pre)), Raised e)).
Proof.
  induction items as [| it rest IH]; intros s c.
  - left. split; [reflexivity |]. simpl. now rewrite str_app_nil_r.
  - destruct (record_ok it) eqn:Hit.
    + assert (Hstep : for_each (it :: rest) save_row (with_dest s c)
                      = for_each rest save_row (with_dest s (c ++ row_text it))).
      { simpl. unfold bind at 1. now rewrite save_row_ok by exact Hit. }
      rewrite Hstep.
      destruct (IH s (c ++ row_text it)) as [[Hall Hrun] | (pre & bad & post & e & Heq & Hpre & Hbad & Hrun)].
      * left. split; [simpl; now rewrite Hit |].
        rewrite Hrun. simpl. now rewrite str_app_assoc.
      * right. exists (it :: pre), bad, post, e. repeat split.
        -- simpl. now rewrite Heq.
        -- simpl. now rewrite Hit.
        -- exact Hbad.
        -- rewrite Hrun. simpl. now rewrite str_app_assoc.
    + right. destruct (save_row_err it s c Hit) as [e He].
      exists [], it, rest, e. repeat split; try assumption.
      simpl. unfold bind at 1. rewrite He. now rewrite str_app_nil_r.
Qed.

Lemma open_write_table : forall data s,
  dir_exists s = true -> dest_writable s = true ->
  (open_write SAVE_PATH ;;; write_table data) s
  = match iter_list data with
    | None => (with_dest s header_text,
               Raised (TypeError ("'" ++ type_name data ++ "' object is not iterable")))
    | Some items => for_each items save_row (with_dest s header_text)
    end.
Proof.
  intros data [d w c b o] Hd Hw. simpl in Hd, Hw. subst d w.
  unfold write_table, bind, open_write, writerow, file_write, py_iter, ret, raise.
  simpl. destruct (iter_list data); reflexivity.
Qed.

Lemma save_config_json : forall data s,
  save_config (JsonBody data) s
  = match (open_write SAVE_PATH ;;; write_table data) s with
    | (s', Ok _) => (s', Ok success_response)
    | (s', Raised e) => (s', Ok (error_response e))
    end.
Proof.
  intros data s. unfold save_config, try_except, request_json, ret.
  unfold bind at 1. unfold bind at 1.
  destruct ((open_write SAVE_PATH ;;; write_table data) s) as [s' [a | e]]; reflexivity.
Qed.

Lemma save_config_json_error : forall e s,
  save_config (JsonError e) s = (s, Ok (error_response e)).
Proof. reflexivity. Qed.

Lemma save_config_no_dir : forall data s,
  dir_exists s = false ->
  save_config (JsonBody data) s = (s, Ok (error_response (FileNotFoundError SAVE_PATH))).
Proof.
  intros data s H. rewrite save_config_json. unfold bind, open_write. now rewrite H.
Qed.

Lemma save_config_not_writable : forall data s,
  dir_exists s = true -> dest_writable s = false ->
  save_config (JsonBody data) s = (s, Ok (error_response (open_failure_exn (open_reason s) SAVE_PATH))).
Proof.
  intros data s Hd Hw. rewrite save_config_json. unfold bind, open_write.
  now rewrite Hd, Hw.
Qed.

Lemma table_content : forall rows,
  header_text ++ str_concat (map row_text rows) = csv_table (map row_of rows).
Proof.
  intro rows. unfold header_text, csv_table. rewrite str_app_assoc. simpl.
  f_equal. f_equal. unfold row_text. now rewrite map_map.
Qed.

Lemma csv_table_layout : forall items,
  csv_table (map row_of items)
  = bom ++ "Panel,Parameter,Value" ++ crlf ++ str_concat (map record_line items).
Proof.
  intro items. unfold csv_table. f_equal. cbn [map str_concat].
  change (csv_join (map csv_field_text HEADER)) with ("Panel,Parameter,Value" ++ crlf).
  rewrite str_app_assoc. f_equal. f_equal. f_equal.
  rewrite map_map. apply map_ext. intro it.
  unfold csv_join, record_line, row_of. cbn [map].
  destruct (csv_field_text (field_of "panel" it)); reflexivity.
Qed.

Lemma with_dest_same_permissions : forall s t c,
  dir_exists s = dir_exists t -> dest_writable s = dest_writable t ->
  open_reason s = open_reason t ->
  with_dest s c = with_dest t c.
Proof. intros s t c Hd Hw Ho. unfold with_dest. now rewrite Hd, Hw, Ho. Qed.




(** Every outcome of the handler. *)
Lemma save_config_cases : forall req s,
  match req with
  | JsonError e => save_config req s = (s, Ok (error_response e))
  | JsonBody data =>
      if dir_exists s && dest_writable s then
        match iter_list data with
        | None =>
            save_config req s
            = (with_dest s (csv_table []),
               Ok (error_response
                     (TypeError ("'" ++ type_name data ++ "' object is not iterable"))))
        | Some items =>
            (forallb record_ok items = true /\
             save_config req s
             = (with_dest s (csv_table (map row_of items)), Ok success_response)) \/
            (exists pre bad post e,
               items = (pre ++ bad :: post)%list /\ forallb record_ok pre = true /\
               record_ok bad = false /\
               save_config req s
               = (with_dest s (csv_table (map row_of pre)), Ok (error_response e)))
        end
      else exists e, save_config req s = (s, Ok (error_response e))
  end.
Proof.
  intros [data | e] s; [| reflexivity].
  destruct (dir_exists s) eqn:Hd.
  2:{ simpl. eexists. now apply save_config_no_dir. }
  destruct (dest_writable s) eqn:Hw.
  2:{ simpl. eexists. now apply save_config_not_writable. }
  simpl. rewrite save_config_json, open_write_table by assumption.
  destruct (iter_list data) as [items |].
  - destruct (for_each_rows items s header_text)
      as [[Hall Hrun] | (pre & bad & post & e & Heq & Hpre & Hbad & Hrun)];
      rewrite Hrun, table_content.
    + left. split; [exact Hall | reflexivity].
    + right. exists pre, bad, post, e. repeat split; assumption.
  - pose proof (table_content []) as Ht. cbn [map str_concat] in Ht.
    rewrite str_app_nil_r in Ht.
    now rewrite Ht.
Qed.

Lemma success_content : forall req s s' r,
  save_config req s = (s', Ok r) -> status r = "success" ->
  exists data items,
    req = JsonBody data /\ iter_list data = Some items /\
    forallb record_ok items = true /\
    dir_exists s = true /\ dest_writable s = true /\
    s' = with_dest s (csv_table (map row_of items)) /\ r = success_response.
Proof.
  intros req s s' r Hrun Hst.
  pose proof (save_config_cases req s) as Hc.
  destruct req as [data | e].
  2:{ rewrite Hc in Hrun. inversion Hrun; subst. discriminate. }
  destruct (dir_exists s) eqn:Hd, (dest_writable s) eqn:Hw; simpl in Hc;
    try (destruct Hc as [e Hc]; rewrite Hc in Hrun; inversion Hrun; subst; discriminate).
  destruct (iter_list data) as [items |] eqn:Hi.
  - destruct Hc as [[Hall Hc] | (pre & bad & post & e & _ & _ & _ & Hc)];
      rewrite Hc in Hrun; inversion Hrun; subst.
    + exists data, items. repeat split; assumption.
    + discriminate.
  - rewrite Hc in Hrun. inversion Hrun; subst. discriminate.
Qed.



(** ** Counting lines *)



















(** * The claims *)

(** ** C1: one record per object, in order *)




(** ** C2: responses *)




(** ** C3: what a failing request leaves behind *)



(** ** C4: each successful save replaces the file *)

(** C4: after two successful saves in sequence, the file is exactly the
    file that any successful single save of the second body produces: the
    first submission leaves no trace (no append, no merge). *)
Theorem save_config_overwrites : forall b1 b2 s s1 s2 r1 r2 t t' r,
  save_config b1 s = (s1, Ok r1) -> status r1 = "success" ->
  save_config b2 s1 = (s2, Ok r2) -> status r2 = "success" ->
  save_config b2 t = (t', Ok r) -> status r = "success" ->
  dest s2 = dest t'.
Proof.
  intros b1 b2 s s1 s2 r1 r2 t t' r _ _ H2 Hs2 Ht Hst.
  destruct (success_content _ _ _ _ H2 Hs2)
    as (d & items & Hb & Hi & _ & _ & _ & -> & _).
  destruct (success_content _ _ _ _ Ht Hst)
    as (d' & items' & Hb' & Hi' & _ & _ & _ & -> & _).
  rewrite Hb in Hb'. inversion Hb'; subst d'.
  rewrite Hi in Hi'. inversion Hi'; subst items'.
  reflexivity.
Qed.

Lemma save_config_overwrites_witness :
  dest (fst (save_config (JsonBody (PList [PDict [("panel", PStr "P"); ("parameter", PStr "Q");
                                                  ("value", PStr "new")]]))
               (fst (save_config (JsonBody (PList [PDict [("panel", PStr "P");
                                                          ("parameter", PStr "Q");
                                                          ("value", PStr "old")]]))
                       (mkFS true true None false Denied)))))
  = dest (fst (save_config (JsonBody (PList [PDict [("panel", PStr "P"); ("parameter", PStr "Q");
                                                    ("value", PStr "new")]]))
                 (mkFS true true (Some "unrelated") false Denied))).
Proof.
  eapply (save_config_overwrites
            (JsonBody (PList [PDict [("panel", PStr "P"); ("parameter", PStr "Q");
                                     ("value", PStr "old")]]))
            (JsonBody (PList [PDict [("panel", PStr "P"); ("parameter", PStr "Q");
                                     ("value", PStr "new")]]))
            (mkFS true true None false Denied) _ _ success_response success_response
            (mkFS true true (Some "unrelated") false Denied) _ success_response);
    vm_compute; reflexivity.
Defined.

(** ** C5: file layout and the worked example *)

(** C5: the destination is SwapDatas/InputDatas.csv; every request that
    writes the file leaves in it the byte-order mark, the header line
    Panel,Parameter,Value and then records whose fields are joined by
    commas, each line ended by CR LF; every success is answered with the
    message "Saved to SwapDatas/InputDatas.csv"; and for the body
    [{"panel":"Audio","parameter":"Volume","value":80}] the file is the
    header line followed by the line Audio,Volume,80. *)
Theorem save_config_file_layout :
  SAVE_PATH = "SwapDatas/InputDatas.csv" /\
  (forall req s,
     fst (save_config req s) = s \/
     exists items,
       fst (save_config req s)
       = with_dest s (bom ++ "Panel,Parameter,Value" ++ crlf ++ str_concat (map record_line items))) /\
  (forall req s s' r, save_config req s = (s', Ok r) -> status r = "success" ->
     r = mkResp 200 "success" "Saved to SwapDatas/InputDatas.csv") /\
  (forall s, dir_exists s = true -> dest_writable s = true ->
     save_config (JsonBody (PList [PDict [("panel", PStr "Audio"); ("parameter", PStr "Volume");
                                          ("value", PInt 80)]])) s
     = (with_dest s (bom ++ "Panel,Parameter,Value" ++ crlf ++ "Audio,Volume,80" ++ crlf),
        Ok (mkResp 200 "success" "Saved to SwapDatas/InputDatas.csv"))).
Proof.
  split; [reflexivity | split; [| split]].
  - intros req s. pose proof (save_config_cases req s) as Hc.
    destruct req as [data | e]; [| left; now rewrite Hc].
    destruct (dir_exists s && dest_writable s).
    2:{ left. destruct Hc as [e Hc]. now rewrite Hc. }
    right. destruct (iter_list data) as [items |].
    + destruct Hc as [[_ Hc] | (pre & bad & post & e & _ & _ & _ & Hc)];
        rewrite Hc, csv_table_layout; eexists; reflexivity.
    + rewrite Hc. exists []. now rewrite <- (csv_table_layout []).
  - intros req s s' r Hrun Hst.
    destruct (success_content req s s' r Hrun Hst) as (_ & _ & _ & _ & _ & _ & _ & _ & ->).
    reflexivity.
  - intros [d w c b o] Hd Hw. simpl in Hd, Hw. subst d w. reflexivity.
Qed.

Lemma save_config_file_layout_witness :
  save_config (JsonBody (PList [PDict [("panel", PStr "Audio"); ("parameter", PStr "Volume");
                                       ("value", PInt 80)]])) (mkFS true true None false Denied)
  = (with_dest (mkFS true true None false Denied)
       (bom ++ "Panel,Parameter,Value" ++ crlf ++ "Audio,Volume,80" ++ crlf),
     Ok (mkResp 200 "success" "Saved to SwapDatas/InputDatas.csv")).
Proof.
  apply (proj2 (proj2 (proj2 save_config_file_layout)) (mkFS true true None false Denied));
    reflexivity.
Defined.

(** ** C6: the header invariant *)

Lemma save_config_keeps_valid : forall req s,
  file_valid (dest s) -> file_valid (dest (fst (save_config req s))).
Proof.
  intros req s Hv.
  assert (Hrows : forall items, file_valid (Some (csv_table (map row_of items)))).
  { intro items. exists (map row_of items). split; [| reflexivity].
    apply Forall_forall. intros r Hr. apply in_map_iff in Hr as (it & <- & _).
    reflexivity. }
  pose proof (save_config_cases req s) as Hc.
  destruct req as [data | e].
  2:{ now rewrite Hc. }
  destruct (dir_exists s && dest_writable s).
  2:{ destruct Hc as [e Hc]. now rewrite Hc. }
  destruct (iter_list data) as [items |].
  - destruct Hc as [[_ Hc] | (pre & bad & post & e & _ & _ & _ & Hc)];
      rewrite Hc; apply Hrows.
  - rewrite Hc. apply (Hrows []).
Qed.

(** C6: over any run of the server (folder initialisation, then any
    sequence of requests, successful or not), a destination file that
    starts well formed stays well formed: whenever it exists it is the
    header record followed by records of three fields. *)
Theorem serve_keeps_file_valid : forall reqs s,
  file_valid (dest s) -> file_valid (dest (serve reqs s)).
Proof.
  intros reqs s Hv. unfold serve.
  assert (Hinit : file_valid (dest (init_folder s))).
  { unfold init_folder. now destruct (dir_exists s). }
  generalize dependent (init_folder s). clear s Hv.
  induction reqs as [| r rest IH]; intros s Hv; [exact Hv |].
  simpl. apply IH. now apply save_config_keeps_valid.
Qed.

Lemma serve_keeps_file_valid_witness :
  file_valid (dest (serve [JsonBody (PList []); JsonBody (PInt 5);
                           JsonError (HTTPException "400 Bad Request")]
                          (mkFS false true None false Denied))).
Proof. apply serve_keeps_file_valid. exact I. Defined.

(** ** C7: the folder *)

(** C7 (counterexample): if SwapDatas is missing when a request arrives,
    the handler does not create it: the save fails with an error and the
    folder is still missing. *)
Lemma C7_missing_folder_counterexample :
  save_config (JsonBody (PList [])) (mkFS false true None false Denied)
  = (mkFS false true None false Denied,
     Ok (mkResp 500 "error"
           "[Errno 2] No such file or directory: 'SwapDatas/InputDatas.csv'")).
Proof. reflexivity. Qed.

(** C7 (amended): the folder is created, if absent, once when the module is
    loaded (leaving the destination alone); the handler never creates it,
    and a request that arrives while it is missing changes nothing and is
    answered with HTTP 500: with the text of the FileNotFoundError [open]
    raises when [request.json] succeeds, and with the error of
    [request.json] otherwise. *)
Theorem folder_created_at_startup_only :
  (forall s, dir_exists (init_folder s) = true /\ dest (init_folder s) = dest s) /\
  (forall req s, dir_exists (fst (save_config req s)) = dir_exists s) /\
  (forall req s, dir_exists s = false ->
     save_config req s
     = (s, Ok (match req with
               | JsonBody _ =>
                   mkResp 500 "error"
                     "[Errno 2] No such file or directory: 'SwapDatas/InputDatas.csv'"
               | JsonError e => error_response e
               end))).
Proof.
  split; [| split].
  - intro s. unfold init_folder. destruct (dir_exists s) eqn:Hd; now split.
  - intros req s. pose proof (save_config_cases req s) as Hc.
    destruct req as [data | e]; [| now rewrite Hc].
    destruct (dir_exists s && dest_writable s).
    2:{ destruct Hc as [e Hc]. now rewrite Hc. }
    destruct (iter_list data) as [items |].
    + destruct Hc as [[_ Hc] | (pre & bad & post & e & _ & _ & _ & Hc)];
        now rewrite Hc.
    + now rewrite Hc.
  - intros [data | e] s Hd.
    + rewrite save_config_no_dir by exact Hd. reflexivity.
    + apply save_config_json_error.
Qed.

Lemma folder_created_at_startup_only_witness :
  save_config (JsonBody (PList [])) (mkFS false true None false Denied)
  = (mkFS false true None false Denied,
     Ok (mkResp 500 "error" "[Errno 2] No such file or directory: 'SwapDatas/InputDatas.csv'")).
Proof.
  apply (proj2 (proj2 folder_created_at_startup_only)
           (JsonBody (PList [])) (mkFS false true None false Denied)).
  reflexivity.
Defined.

(** ** C8: the empty array *)

(** C8: saving the empty array succeeds and leaves a file holding the
    header record alone. *)
Theorem save_config_empty_array : forall s,
  dir_exists s = true -> dest_writable s = true ->
  save_config (JsonBody (PList [])) s
    = (with_dest s (bom ++ "Panel,Parameter,Value" ++ crlf), Ok success_response) /\
  csv_read (bom ++ "Panel,Parameter,Value" ++ crlf) = [["Panel"; "Parameter"; "Value"]].
Proof.
  intros [d w c b o] Hd Hw. simpl in Hd, Hw. subst d w.
  split; reflexivity.
Qed.

Lemma save_config_empty_array_witness :
  save_config (JsonBody (PList [])) (mkFS true true (Some "old") false Denied)
    = (with_dest (mkFS true true (Some "old") false Denied) (bom ++ "Panel,Parameter,Value" ++ crlf),
       Ok success_response) /\
  csv_read (bom ++ "Panel,Parameter,Value" ++ crlf) = [["Panel"; "Parameter"; "Value"]].
Proof. apply (save_config_empty_array (mkFS true true (Some "old") false Denied)); reflexivity. Defined.

(** ** C9: what the outcome depends on *)




(** ** C10: reading the file back *)



(** * Further properties of the code *)

(** ** Path normalisation and [safe_join] *)


Lemma split_nonempty : forall sep s, split_on sep s <> [].
Proof.
  intros sep s. induction s as [| c s IH]; [discriminate |].
  cbn [split_on]. destruct (split_on sep s); [congruence |].
  destruct (Ascii.eqb c sep); discriminate.
Qed.

Lemma split_app_sep : forall w x,
  str_existsb (Ascii.eqb slash) w = false ->
  split_on slash (w ++ String slash x) = w :: split_on slash x.
Proof.
  induction w as [| c w IH]; intros x H.
  - cbn [append split_on]. destruct (split_on slash x) eqn:E.
    + exfalso. exact (split_nonempty slash x E).
    + now rewrite Ascii.eqb_refl.
  - cbn [str_existsb] in H. apply orb_false_iff in H as [Hc Hw].
    cbn [split_on append]. rewrite IH by exact Hw. rewrite Ascii.eqb_sym, Hc. reflexivity.
Qed.






Lemma prefix_app : forall a b, String.prefix a (a ++ b) = true.
Proof.
  induction a as [| c a IH]; intros b; [now destruct b |].
  simpl. destruct (ascii_dec c c); [apply IH | congruence].
Qed.

Lemma prefix_slash_app : forall x, String.prefix "/" (String slash x) = true.
Proof. intros x. simpl. destruct (ascii_dec "/" "/"); [destruct x; reflexivity | congruence]. Qed.


Lemma normpath_step_updir : forall r comp,
  (exists o d, r = (o ++ d)%list /\ d <> [] /\ Forall (fun x => x <> "..") o /\
               Forall (fun x => x = "..") d) ->
  exists o d, normpath_step 0 r comp = (o ++ d)%list /\ d <> [] /\
              Forall (fun x => x <> "..") o /\ Forall (fun x => x = "..") d.
Proof.
  intros r comp (o & d & -> & Hdn & Ho & Hd).
  unfold normpath_step.
  destruct (String.eqb comp EmptyString || String.eqb comp ".") eqn:Hskip.
  { now exists o, d. }
  destruct (String.eqb_spec comp "..") as [-> | Hcomp]; simpl.
  - destruct o as [| x o'].
    + destruct d as [| y d']; [congruence |].
      inversion Hd; subst. simpl.
      exists [], (".." :: ".." :: d').
      split; [reflexivity | split; [discriminate | split; [constructor |]]].
      constructor; [reflexivity | constructor; [reflexivity | assumption]].
    + inversion Ho; subst.
      apply String.eqb_neq in H1. simpl. rewrite H1.
      exists o', d. split; [reflexivity | split; [assumption | split; assumption]].
  - exists (comp :: o), d. split; [reflexivity | split; [assumption | split]].
    + now constructor.
    + assumption.
Qed.

Lemma normpath_fold_updir : forall comps r,
  (exists o d, r = (o ++ d)%list /\ d <> [] /\ Forall (fun x => x <> "..") o /\
               Forall (fun x => x = "..") d) ->
  exists o d, fold_left (normpath_step 0) comps r = (o ++ d)%list /\ d <> [] /\
              Forall (fun x => x <> "..") o /\ Forall (fun x => x = "..") d.
Proof.
  induction comps as [| c comps IH]; intros r H; [exact H |].
  simpl. apply IH. now apply normpath_step_updir.
Qed.

(** A relative path whose first component is [..] keeps it: its
    normalisation is [..] or starts with [../]. *)
Lemma normpath_updir : forall x,
  normpath ("../" ++ x) = ".." \/ String.prefix "../" (normpath ("../" ++ x)) = true.
Proof.
  intros x. unfold normpath.
  change ("../" ++ x) with (".." ++ String slash x).
  assert (E1 : String.eqb (".." ++ String slash x) EmptyString = false) by reflexivity.
  assert (E2 : String.prefix "/" (".." ++ String slash x) = false) by reflexivity.
  rewrite E1, E2.
  rewrite split_app_sep by reflexivity.
  cbn [repeat_str append fold_left].
  destruct (normpath_fold_updir (split_on slash x) (normpath_step 0 [] ".."))
    as (o & d & Hr & Hdn & Ho & Hd).
  { exists [], [".."]. split; [reflexivity | split; [discriminate | split]].
    - constructor.
    - constructor; [reflexivity | constructor]. }
  rewrite Hr, rev_app_distr.
  destruct (rev d) as [| y ys] eqn:Ed.
  { exfalso. apply Hdn. apply (f_equal (@length _)) in Ed. rewrite length_rev in Ed.
    destruct d; [reflexivity | discriminate]. }
  assert (Hy : y = "..").
  { assert (Hin : In y (rev d)) by (rewrite Ed; now left).
    apply in_rev in Hin. rewrite Forall_forall in Hd. now apply Hd. }
  subst y. cbn [app].
  destruct (ys ++ rev o)%list as [| z zs].
  - left. reflexivity.
  - right. change (String.prefix "../" ("../" ++ str_join "/" (z :: zs)) = true).
    apply prefix_app.
Qed.

Lemma normpath_abs : forall p,
  String.prefix "/" p = true -> String.prefix "/" (normpath p) = true.
Proof.
  intros p H. unfold normpath.
  destruct (String.eqb p EmptyString) eqn:He.
  { apply String.eqb_eq in He. subst p. discriminate. }
  rewrite H.
  destruct (String.prefix "//" p && negb (String.prefix "///" p));
    cbn [repeat_str append String.eqb]; apply prefix_slash_app.
Qed.

Lemma safe_join_abs : forall d f,
  String.prefix "/" f = true -> safe_join d f = None.
Proof.
  intros d f H. unfold safe_join. cbv zeta.
  destruct (String.eqb f EmptyString) eqn:He.
  { apply String.eqb_eq in He. subst f. discriminate. }
  now rewrite normpath_abs.
Qed.

Lemma safe_join_updir : forall d x, safe_join d ("../" ++ x) = None.
Proof.
  intros d x. unfold safe_join. cbv zeta.
  replace (String.eqb ("../" ++ x) EmptyString) with false by reflexivity.
  cbv beta iota.
  destruct (normpath_updir x) as [E | E]; rewrite E; [reflexivity |].
  now rewrite orb_true_r.
Qed.




(** The loop stops at the first item the body rejects. *)
Lemma for_each_stop : forall pre bad post s c e,
  forallb record_ok pre = true ->
  (forall c', save_row bad (with_dest s c') = (with_dest s c', Raised e)) ->
  for_each (pre ++ bad :: post) save_row (with_dest s c)
  = (with_dest s (c ++ str_concat (map row_text pre)), Raised e).
Proof.
  induction pre as [| it pre IH]; intros bad post s c e Hpre Hbad.
  - cbn [app for_each map str_concat]. unfold bind at 1. rewrite Hbad.
    now rewrite str_app_nil_r.
  - cbn [forallb] in Hpre. apply andb_true_iff in Hpre as [Hit Hpre].
    cbn [app for_each]. unfold bind at 1. rewrite save_row_ok by exact Hit.
    rewrite (IH bad post s (c ++ row_text it) e Hpre Hbad). cbn [map str_concat]. now rewrite str_app_assoc.
Qed.

Lemma save_config_stop : forall data pre bad post s e,
  dir_exists s = true -> dest_writable s = true ->
  iter_list data = Some (pre ++ bad :: post)%list -> forallb record_ok pre = true ->
  (forall c', save_row bad (with_dest s c') = (with_dest s c', Raised e)) ->
  save_config (JsonBody data) s
  = (with_dest s (csv_table (map row_of pre)), Ok (error_response e)).
Proof.
  intros data pre bad post s e Hd Hw Hi Hpre Hbad.
  rewrite save_config_json, open_write_table by assumption. rewrite Hi.
  rewrite (for_each_stop pre bad post s header_text e Hpre Hbad). now rewrite table_content.
Qed.

(** ** Static routes *)





(** An absolute path is answered with 404 by both static routes, whatever
    the file system holds. *)
Theorem static_routes_reject_absolute : forall read p,
  String.prefix "/" p = true ->
  send_components read p = NotFound404 /\ send_static_file read p = NotFound404.
Proof.
  intros read p H. unfold send_components, send_static_file, send_from_directory.
  now rewrite !safe_join_abs.
Qed.

Lemma static_routes_reject_absolute_witness :
  String.prefix "/" "/etc/passwd" = true /\
  (send_components (fun _ => Some "root") "/etc/passwd" = NotFound404 /\
   send_static_file (fun _ => Some "root") "/etc/passwd" = NotFound404).
Proof.
  split; [reflexivity |].
  apply (static_routes_reject_absolute (fun _ => Some "root") "/etc/passwd").
  reflexivity.
Defined.

(** A path whose first component is [..], and [..] itself, is answered
    with 404 by both static routes, whatever the file system holds. *)
Theorem static_routes_reject_parent : forall read p,
  (p = ".." \/ exists x, p = "../" ++ x) ->
  send_components read p = NotFound404 /\
  send_static_file read p = NotFound404.
Proof.
  intros read p [-> | [x ->]]; unfold send_components, send_static_file, send_from_directory.
  - split; reflexivity.
  - now rewrite !safe_join_updir.
Qed.

Lemma static_routes_reject_parent_witness :
  send_components (fun _ => Some "secret") ".." = NotFound404 /\
  send_static_file (fun _ => Some "secret") ".." = NotFound404.
Proof.
  apply (static_routes_reject_parent (fun _ => Some "secret") "..").
  left. reflexivity.
Defined.

(** After a successful save, the static route of the application folder
    serves the saved table at [/SwapDatas/InputDatas.csv] to any client
    (the file system being the one the handler wrote). *)
Theorem static_route_serves_saved_table : forall read req s s' r,
  save_config req s = (s', Ok r) -> status r = "success" ->
  read ("./" ++ SAVE_PATH) = dest s' ->
  exists data items,
    req = JsonBody data /\ iter_list data = Some items /\
    send_static_file read SAVE_PATH
    = Served ("./" ++ SAVE_PATH) (csv_table (map row_of items)).
Proof.
  intros read req s s' r Hrun Hst Hread.
  destruct (success_content req s s' r Hrun Hst)
    as (data & items & Hreq & Hi & _ & _ & _ & Hs' & _).
  exists data, items. split; [assumption | split; [assumption |]].
  unfold send_static_file, send_from_directory.
  replace (safe_join "." SAVE_PATH) with (Some ("./" ++ SAVE_PATH)) by reflexivity.
  cbv beta iota. rewrite Hread, Hs'. reflexivity.
Qed.

Lemma static_route_serves_saved_table_witness :
  save_config (JsonBody (PList [PDict [("panel", PStr "A"); ("parameter", PStr "B");
                                       ("value", PInt 1)]]))
              (mkFS true true None false Denied)
  = (with_dest (mkFS true true None false Denied) (csv_table [[PStr "A"; PStr "B"; PInt 1]]),
     Ok success_response) /\
  status success_response = "success" /\
  (fun p => if String.eqb p "./SwapDatas/InputDatas.csv"
            then Some (csv_table [[PStr "A"; PStr "B"; PInt 1]]) else None)
    ("./" ++ SAVE_PATH)
  = dest (with_dest (mkFS true true None false Denied) (csv_table [[PStr "A"; PStr "B"; PInt 1]])) /\
  exists data items,
    JsonBody (PList [PDict [("panel", PStr "A"); ("parameter", PStr "B"); ("value", PInt 1)]])
    = JsonBody data /\ iter_list data = Some items /\
    send_static_file (fun p => if String.eqb p "./SwapDatas/InputDatas.csv"
                               then Some (csv_table [[PStr "A"; PStr "B"; PInt 1]]) else None)
                     SAVE_PATH
    = Served ("./" ++ SAVE_PATH) (csv_table (map row_of items)).
Proof.
  assert (H1 : save_config (JsonBody (PList [PDict [("panel", PStr "A"); ("parameter", PStr "B");
                                                    ("value", PInt 1)]]))
                           (mkFS true true None false Denied)
               = (with_dest (mkFS true true None false Denied) (csv_table [[PStr "A"; PStr "B"; PInt 1]]),
                  Ok success_response)) by (vm_compute; reflexivity).
  assert (H2 : status success_response = "success") by reflexivity.
  assert (H3 : (fun p => if String.eqb p "./SwapDatas/InputDatas.csv"
                         then Some (csv_table [[PStr "A"; PStr "B"; PInt 1]]) else None)
                 ("./" ++ SAVE_PATH)
               = dest (with_dest (mkFS true true None false Denied)
                                 (csv_table [[PStr "A"; PStr "B"; PInt 1]]))) by reflexivity.
  exact (conj H1 (conj H2 (conj H3 (static_route_serves_saved_table _ _ _ _ _ H1 H2 H3)))).
Defined.

(** ** Bodies that are not arrays of objects *)

(** A non-empty JSON object as body: the loop visits its keys, which are
    strings, and indexing a string with [panel] raises a TypeError; the
    file is left with the header alone. *)
Theorem save_config_object_body : forall k v es s,
  dir_exists s = true -> dest_writable s = true ->
  save_config (JsonBody (PDict ((k, v) :: es))) s
  = (with_dest s (csv_table []),
     Ok (mkResp 500 "error" "string indices must be integers, not 'str'")).
Proof.
  intros k v es s Hd Hw.
  apply (save_config_stop _ [] (PStr k) (map PStr (dict_keys_aux es [k])) s
           (TypeError "string indices must be integers, not 'str'"));
    try assumption; reflexivity.
Qed.

Lemma save_config_object_body_witness :
  dir_exists (mkFS true true (Some "old") false Denied) = true /\
  dest_writable (mkFS true true (Some "old") false Denied) = true /\
  save_config (JsonBody (PDict [("panel", PStr "A"); ("parameter", PStr "B");
                                ("value", PInt 1)])) (mkFS true true (Some "old") false Denied)
  = (with_dest (mkFS true true (Some "old") false Denied) (csv_table []),
     Ok (mkResp 500 "error" "string indices must be integers, not 'str'")).
Proof.
  split; [reflexivity | split; [reflexivity |]].
  apply save_config_object_body; reflexivity.
Defined.

(** A non-empty JSON string as body: the loop visits its characters, and
    indexing a one-character string with [panel] raises a TypeError; the
    file is left with the header alone. *)
Theorem save_config_string_body : forall ch rest s,
  dir_exists s = true -> dest_writable s = true ->
  save_config (JsonBody (PStr (String ch rest))) s
  = (with_dest s (csv_table []),
     Ok (mkResp 500 "error" "string indices must be integers, not 'str'")).
Proof.
  intros ch rest s Hd Hw.
  apply (save_config_stop _ [] (PStr (str1 ch))
           (map (fun c => PStr (str1 c)) (list_ascii_of_string rest)) s
           (TypeError "string indices must be integers, not 'str'"));
    try assumption; reflexivity.
Qed.

Lemma save_config_string_body_witness :
  dir_exists (mkFS true true None false Denied) = true /\
  dest_writable (mkFS true true None false Denied) = true /\
  save_config (JsonBody (PStr "rows")) (mkFS true true None false Denied)
  = (with_dest (mkFS true true None false Denied) (csv_table []),
     Ok (mkResp 500 "error" "string indices must be integers, not 'str'")).
Proof.
  split; [reflexivity | split; [reflexivity |]].
  apply save_config_string_body; reflexivity.
Defined.

(** The empty JSON object and the empty JSON string as body: the loop has
    nothing to visit, and the request succeeds with a file holding the
    header alone, as for the empty array. *)
Theorem save_config_empty_object_or_string : forall s,
  dir_exists s = true -> dest_writable s = true ->
  save_config (JsonBody (PDict [])) s = (with_dest s (csv_table []), Ok success_response) /\
  save_config (JsonBody (PStr EmptyString)) s
  = (with_dest s (csv_table []), Ok success_response).
Proof.
  intros s Hd Hw.
  pose proof (table_content []) as Ht. cbn [map str_concat] in Ht.
  rewrite str_app_nil_r in Ht.
  split; rewrite save_config_json, open_write_table by assumption;
    cbn [iter_list dict_keys dict_keys_aux list_ascii_of_string map for_each];
    unfold ret; now rewrite Ht.
Qed.

Lemma save_config_empty_object_or_string_witness :
  dir_exists (mkFS true true (Some "old") true Denied) = true /\
  dest_writable (mkFS true true (Some "old") true Denied) = true /\
  (save_config (JsonBody (PDict [])) (mkFS true true (Some "old") true Denied)
   = (with_dest (mkFS true true (Some "old") true Denied) (csv_table []), Ok success_response) /\
   save_config (JsonBody (PStr EmptyString)) (mkFS true true (Some "old") true Denied)
   = (with_dest (mkFS true true (Some "old") true Denied) (csv_table []), Ok success_response)).
Proof.
  split; [reflexivity | split; [reflexivity |]].
  apply save_config_empty_object_or_string; reflexivity.
Defined.

(** ** The error message for the first rejected item *)




